(* ===================================================================== *)
(* Trivia-Genius: the GenAI Learning Games API (main.py)                 *)
(*                                                                       *)
(* A shallow embedding of the FastAPI service: module start-up, the two  *)
(* request handlers with their try/except ladders, and the routing layer *)
(* (query default, request-body validation, HTTPException rendering).    *)
(* ===================================================================== *)

From Stdlib Require Import ZArith NArith Ascii String List DecimalString.
From stdpp Require Import base option list gmap.

Local Open Scope Z_scope.

(* --------------------------------------------------------------------- *)
(* Python str: a sequence of Unicode code points                         *)
(* --------------------------------------------------------------------- *)

Module PyStr.

(** A Python [str] is a sequence of code points; a literal of the
    source that is pure ASCII is written [lit "..."]. *)
Abbreviation char := N (only parsing).
Abbreviation str := (list N) (only parsing).

Definition lit (s : string) : str :=
  List.map N_of_ascii (list_ascii_of_string s).

(** [str.isspace] on one code point (CPython's _PyUnicode_IsWhitespace). *)
Definition isspace (c : char) : bool :=
  ((9 <=? c) && (c <=? 13))%N
  || ((28 <=? c) && (c <=? 32))%N
  || (c =? 133)%N || (c =? 160)%N || (c =? 5760)%N
  || ((8192 <=? c) && (c <=? 8202))%N
  || (c =? 8232)%N || (c =? 8233)%N || (c =? 8239)%N
  || (c =? 8287)%N || (c =? 12288)%N.

Fixpoint lstrip (s : str) : str :=
  match s with
  | [] => []
  | c :: s' => if isspace c then lstrip s' else s
  end.

Definition rstrip (s : str) : str := reverse (lstrip (reverse s)).

(** [s.strip()] with no argument. *)
Definition strip (s : str) : str := rstrip (lstrip s).

(** Truthiness of an optional string: [None] and [""] are falsy. *)
Definition truthy (o : option str) : bool :=
  match o with
  | None => false
  | Some [] => false
  | Some (_ :: _) => true
  end.

(** No white space at either end. *)
Definition trimmed (s : str) : Prop :=
  (forall c, head s = Some c -> isspace c = false)
  /\ (forall c, last s = Some c -> isspace c = false).

(** [sub in s]. *)
Definition contains (s sub : str) : Prop :=
  exists pre post, s = pre ++ sub ++ post.

End PyStr.
Import PyStr.

(* --------------------------------------------------------------------- *)
(* Exceptions and the handler monad                                      *)
(* --------------------------------------------------------------------- *)

(** The instances of [Exception] that can be in flight in main.py.
    [ResourceExhausted] and [InvalidArgument] are the errors of
    google.api_core.exceptions that the client library raises when the
    provider reports an exceeded quota or rate limit (HTTP 429) and a
    malformed request (HTTP 400). [AttributeError] is what a failed
    attribute lookup raises. [OtherException] stands for every other
    subclass of [Exception] (ValueError, a transport error, a blocked
    response, ...). Each carries what [str(e)] shows. *)
Inductive exn : Type :=
| ResourceExhausted (msg : list N)
| InvalidArgument (msg : list N)
| HTTPException (status_code : Z) (detail : list N)
| AttributeError (msg : list N)
| OtherException (msg : list N).

Inductive result (A : Type) : Type :=
| Ok (a : A)
| Raise (e : exn).
Arguments Ok {A} a.
Arguments Raise {A} e.

(** One call of [GenerativeModel(model).generate_content(prompt)]. *)
Record call := Call { call_model : list N; call_prompt : list N }.

(** A computation that may raise and that logs the provider calls it
    makes, in order. *)
Definition M (A : Type) : Type := list call -> result A * list call.

Definition ret {A} (a : A) : M A := fun log => (Ok a, log).

Definition bind {A B} (m : M A) (k : A -> M B) : M B :=
  fun log =>
    match m log with
    | (Ok a, log') => k a log'
    | (Raise e, log') => (Raise e, log')
    end.

Definition raise {A} (e : exn) : M A := fun log => (Raise e, log).

(** One [except <class expression> as e: <handler>] clause. The class
    expression is evaluated only once an exception is in flight; it gives
    the class, as the test [isinstance(e, class)], or raises itself. *)
Definition except_clause (A : Type) : Type :=
  (M (exn -> bool) * (exn -> M A))%type.

(** The search for a handler of [e] down the clauses of a [try]: a class
    expression that raises ends the search and its exception goes on
    instead of [e]; with no clause left, [e] goes on. *)
Fixpoint dispatch {A} (e : exn) (clauses : list (except_clause A)) : M A :=
  match clauses with
  | [] => raise e
  | (class, handler) :: clauses' =>
      fun log =>
        match class log with
        | (Ok isinstance, log') =>
            if isinstance e then handler e log'
            else dispatch e clauses' log'
        | (Raise e', log') => (Raise e', log')
        end
  end.

(** [try: m  except c1 as e: h1  except c2 as e: h2 ...] *)
Definition try_except {A} (m : M A) (clauses : list (except_clause A))
    : M A :=
  fun log =>
    match m log with
    | (Ok a, log') => (Ok a, log')
    | (Raise e, log') => dispatch e clauses log'
    end.

(** The class [Exception]: every exception modelled here is one. *)
Definition Exception : M (exn -> bool) := ret (fun _ => true).

(** [genai.types.<attr>] for the two attributes main.py asks for,
    RateLimitError and RequestError: google.generativeai.types defines
    neither, so the lookup raises AttributeError. *)
Definition genai_types_getattr (attr : str) : M (exn -> bool) :=
  raise (AttributeError
           (lit "module 'google.generativeai.types' has no attribute '"
            ++ attr ++ lit "'")).

Declare Scope py_scope.
Delimit Scope py_scope with py.
Notation "x <- m ;; k" := (bind m (fun x => k))
  (at level 100, m at next level, right associativity) : py_scope.
Local Open Scope py_scope.

(** The provider, as main.py consumes it: building the model object,
    [generate_content] and reading [response.text] give a text or raise. *)
Definition provider : Type := list N -> list N -> result (list N).

Definition generate_content (gen : provider) (model prompt : str) : M str :=
  fun log => (gen model prompt, log ++ [Call model prompt]).

(* --------------------------------------------------------------------- *)
(* JSON values, responses                                                *)
(* --------------------------------------------------------------------- *)

(** A member of a JSON request body; [JCompound] is an array or an
    object, whose contents play no part here. *)
Inductive json : Type :=
| JNull
| JBool (b : bool)
| JNumber (z : Z)
| JString (s : list N)
| JCompound.

(** What a response carries: a flat JSON object of strings (a handler's
    dict, or [{"detail": d}] for an HTTPException), FastAPI's
    request-validation report (one location per rejected field), or the
    plain text of the server's own error page. *)
Inductive body : Type :=
| JsonDict (d : gmap (list N) (list N))
| ValidationErrors (locs : list (list (list N)))
| PlainText (t : list N).

Record Response := { status : Z; content : body }.

(** FastAPI's rendering of what a handler returned or raised. *)
Definition respond (r : result (gmap (list N) (list N))) : Response :=
  match r with
  | Ok d => {| status := 200; content := JsonDict d |}
  | Raise (HTTPException s d) =>
      {| status := s; content := JsonDict {[ lit "detail" := d ]} |}
  | Raise _ =>
      {| status := 500; content := PlainText (lit "Internal Server Error") |}
  end.

(** Serving one request: the handler runs from an empty call log. *)
Definition serve (m : M (gmap (list N) (list N))) : Response * list call :=
  let (r, log) := m [] in (respond r, log).

(** [str(e)] of an HTTPException in current Starlette:
    f"{status_code}: {detail}". *)
Definition decimal (z : Z) : str :=
  lit (NilZero.string_of_int (Z.to_int z)).

Definition starlette_str (status_code : Z) (detail : str) : str :=
  decimal status_code ++ lit ": " ++ detail.

(** pydantic's [str] field validation when only JSON strings pass. *)
Definition str_strict (v : json) : option str :=
  match v with
  | JString s => Some s
  | _ => None
  end.

(* --------------------------------------------------------------------- *)
(* main.py                                                               *)
(* --------------------------------------------------------------------- *)

(** An entry of [genai.list_models()]. *)
Record Model := { name : list N }.

(** The module globals the handlers read. *)
Record Globals := {
  GENAI_API_KEY : option (list N);
  available_models : list (list N)
}.

(** The cross mark that opens the start-up error message. *)
Definition cross_mark : str := [10060%N].

(** Module start-up (lines 23-37). [environ] is os.environ once
    load_dotenv() has run; [list_models] is what genai.list_models() and
    the comprehension over it come to (an exception there is caught and
    leaves the list empty). genai.configure only records the key, and the
    two prints are console output; neither is modelled. *)
Definition startup (environ : gmap (list N) (list N))
    (list_models : result (list Model)) : result Globals :=
  let key := environ !! lit "GENAI_API_KEY" in
  if negb (truthy key) then
    Raise (OtherException
      (cross_mark ++ lit " Google Gemini API key is missing! Set GENAI_API_KEY in .env or environment variables."))
  else
    let models :=
      match list_models with
      | Ok models => List.map name models
      | Raise _ => []
      end in
    Ok {| GENAI_API_KEY := key; available_models := models |}.

Definition read_root : M (gmap (list N) (list N)) :=
  ret {[ lit "message" := lit "Welcome to the GenAI Learning Games API!" ]}.

Record AnswerRequest := { question : list N; answer : list N }.

Section Handlers.

(** [str(e)] of an HTTPException is the framework's business (Starlette
    changed it between releases), so it is left open. *)
Variable http_exception_str : Z -> list N -> list N.

(** pydantic's validation of one member as [str] (strict or coercing,
    by version). *)
Variable validate_str : json -> option (list N).

Definition str_exn (e : exn) : str :=
  match e with
  | ResourceExhausted msg => msg
  | InvalidArgument msg => msg
  | HTTPException s d => http_exception_str s d
  | AttributeError msg => msg
  | OtherException msg => msg
  end.

Definition model_missing (model_name : str) : exn :=
  HTTPException 400
    (lit "Model " ++ model_name ++ lit " not found. Check your API access.").

Definition generate_question (g : Globals) (gen : provider) (topic : str)
    : M (gmap (list N) (list N)) :=
  if negb (truthy (GENAI_API_KEY g)) then
    raise (HTTPException 500 (lit "Google Gemini API key is missing!"))
  else
    try_except
      (let model_name := lit "models/gemini-1.5-flash" in
       if negb (bool_decide (model_name ∈ available_models g)) then
         raise (model_missing model_name)
       else
         text <- generate_content gen model_name
                   (lit "Generate a " ++ topic ++ lit " learning question.") ;;
         ret {[ lit "question" := strip text ]})
      [ (genai_types_getattr (lit "RateLimitError"),
         fun _ =>
           raise (HTTPException 429
                    (lit "Quota exceeded. Please try again later.")));
        (genai_types_getattr (lit "RequestError"),
         fun e =>
           raise (HTTPException 400 (lit "Invalid request: " ++ str_exn e)));
        (Exception,
         fun e =>
           raise (HTTPException 500
                    (lit "Unexpected error: " ++ str_exn e))) ].

Definition newline : str := [10%N].

Definition evaluate_answer (g : Globals) (gen : provider)
    (request : AnswerRequest) : M (gmap (list N) (list N)) :=
  if negb (truthy (GENAI_API_KEY g)) then
    raise (HTTPException 500 (lit "Google Gemini API key is missing!"))
  else
    try_except
      (let model_name := lit "models/gemini-1.5-flash" in
       if negb (bool_decide (model_name ∈ available_models g)) then
         raise (model_missing model_name)
       else
         let prompt :=
           lit "Here is a learning question: " ++ question request ++ newline
           ++ lit "The user's answer: " ++ answer request ++ newline
           ++ lit "Evaluate the correctness of this answer. If incorrect, provide a helpful hint or explanation." in
         text <- generate_content gen model_name prompt ;;
         ret {[ lit "feedback" := strip text ]})
      [ (genai_types_getattr (lit "RateLimitError"),
         fun _ =>
           raise (HTTPException 429
                    (lit "Quota exceeded. Try again later.")));
        (genai_types_getattr (lit "RequestError"),
         fun e =>
           raise (HTTPException 400 (lit "Invalid request: " ++ str_exn e)));
        (Exception,
         fun e =>
           raise (HTTPException 500
                    (lit "Unexpected error: " ++ str_exn e))) ].

(** Request validation against [AnswerRequest]: both members are
    required (no default) and must validate as [str]. *)
Definition validate_field (body : gmap (list N) json) (f : str)
    : option str :=
  match body !! f with
  | Some v => validate_str v
  | None => None
  end.

Definition field_errors (body : gmap (list N) json) (f : str)
    : list (list (list N)) :=
  match validate_field body f with
  | Some _ => []
  | None => [[lit "body"; f]]
  end.

Definition parse_AnswerRequest (body : gmap (list N) json)
    : list (list (list N)) + AnswerRequest :=
  match validate_field body (lit "question"),
        validate_field body (lit "answer") with
  | Some q, Some a => inr {| question := q; answer := a |}
  | _, _ =>
      inl (field_errors body (lit "question")
           ++ field_errors body (lit "answer"))
  end.

(** GET /generate_question *)
Definition get_generate_question (g : Globals) (gen : provider)
    (query : gmap (list N) (list N)) : Response * list call :=
  let topic := default (lit "math") (query !! lit "topic") in
  serve (generate_question g gen topic).

(** POST /evaluate_answer with a body that is a JSON object, given by
    its members (the other bodies: [post_evaluate_answer_body]). *)
Definition post_evaluate_answer (g : Globals) (gen : provider)
    (body : gmap (list N) json) : Response * list call :=
  match parse_AnswerRequest body with
  | inl locs => ({| status := 422; content := ValidationErrors locs |}, [])
  | inr request => serve (evaluate_answer g gen request)
  end.

End Handlers.



(** The fixed model identifier of both handlers. *)
Definition the_model : str := lit "models/gemini-1.5-flash".

(** The prompts the handlers build (lines 55 and 84-88). *)
Definition question_prompt (topic : str) : str :=
  lit "Generate a " ++ topic ++ lit " learning question.".

Definition evaluation_prompt (request : AnswerRequest) : str :=
  lit "Here is a learning question: " ++ question request ++ newline
  ++ lit "The user's answer: " ++ answer request ++ newline
  ++ lit "Evaluate the correctness of this answer. If incorrect, provide a helpful hint or explanation.".

(** A process that got through start-up. *)
Definition running (g : Globals) : Prop :=
  exists environ list_models, startup environ list_models = Ok g.

Definition model_available (g : Globals) : Prop :=
  the_model ∈ available_models g.

(** A member of a response's JSON object. *)
Definition member (r : Response) (k : str) : option str :=
  match content r with
  | JsonDict d => d !! k
  | _ => None
  end.

(** What a handler may hand to FastAPI without an error page: a value
    or an HTTPException. *)
Definition handled {A} (r : result A) : Prop :=
  match r with
  | Ok _ => True
  | Raise (HTTPException _ _) => True
  | Raise _ => False
  end.

(** The answer to a request whose handler let an exception other than
    an HTTPException out: the server's own 500 page. *)
Definition internal_server_error : Response :=
  {| status := 500; content := PlainText (lit "Internal Server Error") |}.

(** The AttributeError of the first [except] clause of either handler. *)
Definition no_RateLimitError : exn :=
  AttributeError
    (lit "module 'google.generativeai.types' has no attribute 'RateLimitError'").

(** The topic a query string selects (line 44). *)
Definition query_topic (query : gmap (list N) (list N)) : str :=
  default (lit "math") (query !! lit "topic").

(* --------------------------------------------------------------------- *)
(* Concrete processes, providers and requests                            *)
(* --------------------------------------------------------------------- *)

Definition env_ok : gmap (list N) (list N) :=
  {[ lit "GENAI_API_KEY" := lit "secret" ]}.

Definition models_ok : result (list Model) :=
  Ok [ {| name := lit "models/gemini-1.0-pro" |};
       {| name := lit "models/gemini-1.5-flash" |} ].

(** The process after a start-up that listed the model. *)
Definition g_ok : Globals :=
  {| GENAI_API_KEY := Some (lit "secret");
     available_models :=
       [lit "models/gemini-1.0-pro"; lit "models/gemini-1.5-flash"] |}.

(** The process after a start-up whose model listing failed. *)
Definition g_no_model : Globals :=
  {| GENAI_API_KEY := Some (lit "secret"); available_models := [] |}.

Definition gen_const (r : result (list N)) : provider := fun _ _ => r.

Definition query_algebra : gmap (list N) (list N) :=
  {[ lit "topic" := lit "algebra" ]}.

Definition body_full : gmap (list N) json :=
  {[ lit "question" := JString (lit "2+2?");
     lit "answer" := JString (lit "5") ]}.

Definition request_full : AnswerRequest :=
  {| question := lit "2+2?"; answer := lit "5" |}.


(** Globals with no key: what the guard at the head of a handler sees
    when it fires. *)
Definition g_no_key : Globals :=
  {| GENAI_API_KEY := None;
     available_models := [lit "models/gemini-1.5-flash"] |}.

(** The same process as [g_ok] under another key. *)
Definition g_other_key : Globals :=
  {| GENAI_API_KEY := Some (lit "another");
     available_models :=
       [lit "models/gemini-1.0-pro"; lit "models/gemini-1.5-flash"] |}.

(** The line that introduces the answer in the evaluation prompt. *)
Definition answer_line : str := [10%N] ++ lit "The user's answer: ".

(** The provider calls a handler run adds when the key is set and the
    model is listed, and none otherwise. *)
Definition calls_when_ready (g : Globals) (prompt : str) : list call :=
  if truthy (GENAI_API_KEY g)
     && bool_decide (lit "models/gemini-1.5-flash" ∈ available_models g)
  then [Call (lit "models/gemini-1.5-flash") prompt]
  else [].

(* ===================================================================== *)
(* Properties                                                            *)
(* ===================================================================== *)

Section StripFacts.

Lemma lstrip_head (s : list N) (c : N) :
  head (lstrip s) = Some c -> isspace c = false.
Proof.
  induction s as [|x s IH]; simpl; [discriminate|].
  destruct (isspace x) eqn:Hx; [exact IH|].
  simpl. intros [= <-]. exact Hx.
Qed.

Lemma lstrip_split (s : list N) :
  exists pre, s = pre ++ lstrip s /\ Forall (fun c => isspace c = true) pre.
Proof.
  induction s as [|x s [pre [Hs Hpre]]]; simpl.
  - exists []. split; [reflexivity | constructor].
  - destruct (isspace x) eqn:Hx.
    + exists (x :: pre). split; [simpl; congruence | by constructor].
    + exists []. split; [reflexivity | constructor].
Qed.

Lemma lstrip_nil_iff (s : list N) :
  lstrip s = [] <-> Forall (fun c => isspace c = true) s.
Proof.
  induction s as [|x s IH]; simpl.
  - split; [constructor | reflexivity].
  - destruct (isspace x) eqn:Hx.
    + rewrite IH. split; [by constructor | by inversion 1].
    + split; [discriminate | inversion 1; congruence].
Qed.

Lemma rstrip_nil_iff (s : list N) :
  rstrip s = [] <-> Forall (fun c => isspace c = true) s.
Proof.
  unfold rstrip. rewrite <- (Forall_reverse _ s), <- lstrip_nil_iff.
  split; intros H.
  - apply (f_equal reverse) in H. by rewrite reverse_involutive in H.
  - by rewrite H.
Qed.

Lemma rstrip_last (s : list N) (c : N) :
  last (rstrip s) = Some c -> isspace c = false.
Proof. unfold rstrip. rewrite last_reverse. apply lstrip_head. Qed.

Lemma rstrip_head (s : list N) :
  rstrip s <> [] -> head (rstrip s) = head s.
Proof.
  intros Hne. destruct (lstrip_split (reverse s)) as [pre [Hs _]].
  apply (f_equal reverse) in Hs.
  rewrite reverse_involutive, reverse_app in Hs.
  fold (rstrip s) in Hs. rewrite Hs at 2.
  destruct (rstrip s); [done | reflexivity].
Qed.

Lemma strip_trimmed (s : list N) : trimmed (strip s).
Proof.
  unfold strip. split; intros c Hc.
  - rewrite rstrip_head in Hc by (intros E; rewrite E in Hc; discriminate).
    by apply lstrip_head in Hc.
  - by apply rstrip_last in Hc.
Qed.

Lemma strip_nil_iff (s : list N) :
  strip s = [] <-> Forall (fun c => isspace c = true) s.
Proof.
  unfold strip. rewrite rstrip_nil_iff. split; intros H.
  - apply lstrip_nil_iff.
    destruct (lstrip s) as [|x t] eqn:E; [reflexivity|].
    assert (isspace x = false) by (apply (lstrip_head s); by rewrite E).
    inversion H; congruence.
  - apply lstrip_nil_iff in H. rewrite H. constructor.
Qed.

Lemma strip_nonempty_iff (s : list N) :
  strip s <> [] <-> exists c, c ∈ s /\ isspace c = false.
Proof.
  rewrite strip_nil_iff. split.
  - intros Hn. apply not_Forall_Exists in Hn; [| intros c; apply _].
    apply Exists_exists in Hn as [c [Hin Hc]]. exists c. split; [done|].
    by apply not_true_is_false.
  - intros [c [Hin Hc]] Hall. rewrite Forall_forall in Hall.
    specialize (Hall c Hin). congruence.
Qed.

Lemma rstrip_split (s : list N) :
  exists post,
    s = rstrip s ++ post /\ Forall (fun c => isspace c = true) post.
Proof.
  destruct (lstrip_split (reverse s)) as (pre & Hs & Hpre).
  exists (reverse pre). split; [| by apply Forall_reverse].
  apply (f_equal reverse) in Hs.
  by rewrite reverse_involutive, reverse_app in Hs.
Qed.

Lemma strip_split (s : list N) :
  exists pre post,
    s = pre ++ strip s ++ post
    /\ Forall (fun c => isspace c = true) pre
    /\ Forall (fun c => isspace c = true) post.
Proof.
  destruct (lstrip_split s) as (pre & Hs & Hpre).
  destruct (rstrip_split (lstrip s)) as (post & Ht & Hpost).
  exists pre, post. unfold strip. by rewrite <- Ht.
Qed.

Example strip_both_ends :
  strip (lit "  What is x in 2x=10? ") = lit "What is x in 2x=10?".
Proof. reflexivity. Qed.

Example strip_keeps_inner :
  strip ([10; 9] ++ lit "a b" ++ [160; 8232])%N = lit "a b".
Proof. reflexivity. Qed.

Example strip_blank : strip (lit "   ") = [].
Proof. reflexivity. Qed.

End StripFacts.

(* --------------------------------------------------------------------- *)
(* Running the handlers                                                  *)
(* --------------------------------------------------------------------- *)

Section HandlerFacts.

Variable hs : Z -> list N -> list N.
Variable vs : json -> option (list N).

Lemma running_key (g : Globals) :
  running g -> truthy (GENAI_API_KEY g) = true.
Proof.
  intros (environ & lm & H). unfold startup in H.
  destruct (truthy (environ !! lit "GENAI_API_KEY")) eqn:E; simpl in H;
    [| discriminate].
  injection H as <-. exact E.
Qed.

Lemma available_decide (g : Globals) :
  model_available g ->
  bool_decide (lit "models/gemini-1.5-flash" ∈ available_models g) = true.
Proof. intros H. by apply bool_decide_eq_true_2. Qed.

Lemma unavailable_decide (g : Globals) :
  ~ model_available g ->
  bool_decide (lit "models/gemini-1.5-flash" ∈ available_models g) = false.
Proof. intros H. by apply bool_decide_eq_false_2. Qed.

(** Whatever is in flight, the search down the ladder of either handler
    stops at its first clause, whose class expression raises. *)
Lemma ladder_stops_at_first_clause {A} (e : exn) (attr : list N)
    (h : exn -> M A) (rest : list (except_clause A)) log :
  dispatch e ((genai_types_getattr attr, h) :: rest) log
  = (Raise (AttributeError
              (lit "module 'google.generativeai.types' has no attribute '"
               ++ attr ++ lit "'")), log).
Proof. reflexivity. Qed.

Ltac enter_handler Hkey Hmodel :=
  unfold generate_question, evaluate_answer;
  rewrite Hkey; simpl negb; cbv iota;
  unfold try_except, bind, raise, ret, generate_content;
  rewrite Hmodel; simpl negb; cbv iota.

(** With the key set and the model listed, [generate_question] makes one
    provider call and returns its stripped text. *)
Lemma generate_question_ok (g : Globals) (gen : provider) topic text log :
  truthy (GENAI_API_KEY g) = true -> model_available g ->
  gen the_model (question_prompt topic) = Ok text ->
  generate_question hs g gen topic log
  = (Ok {[ lit "question" := strip text ]},
     log ++ [Call the_model (question_prompt topic)]).
Proof.
  intros Hkey Hav Hgen. apply available_decide in Hav.
  enter_handler Hkey Hav.
  fold the_model. fold (question_prompt topic). by rewrite Hgen.
Qed.

(** When the provider call raises, whatever it raises, the handler lets
    out the AttributeError of its first [except] clause. *)
Lemma generate_question_raise (g : Globals) (gen : provider) topic e log :
  truthy (GENAI_API_KEY g) = true -> model_available g ->
  gen the_model (question_prompt topic) = Raise e ->
  generate_question hs g gen topic log
  = (Raise no_RateLimitError,
     log ++ [Call the_model (question_prompt topic)]).
Proof.
  intros Hkey Hav Hgen. apply available_decide in Hav.
  enter_handler Hkey Hav.
  fold the_model. fold (question_prompt topic). by rewrite Hgen.
Qed.

Lemma evaluate_answer_ok (g : Globals) (gen : provider) request text log :
  truthy (GENAI_API_KEY g) = true -> model_available g ->
  gen the_model (evaluation_prompt request) = Ok text ->
  evaluate_answer hs g gen request log
  = (Ok {[ lit "feedback" := strip text ]},
     log ++ [Call the_model (evaluation_prompt request)]).
Proof.
  intros Hkey Hav Hgen. apply available_decide in Hav.
  enter_handler Hkey Hav.
  fold the_model. fold (evaluation_prompt request). by rewrite Hgen.
Qed.

Lemma evaluate_answer_raise (g : Globals) (gen : provider) request e log :
  truthy (GENAI_API_KEY g) = true -> model_available g ->
  gen the_model (evaluation_prompt request) = Raise e ->
  evaluate_answer hs g gen request log
  = (Raise no_RateLimitError,
     log ++ [Call the_model (evaluation_prompt request)]).
Proof.
  intros Hkey Hav Hgen. apply available_decide in Hav.
  enter_handler Hkey Hav.
  fold the_model. fold (evaluation_prompt request). by rewrite Hgen.
Qed.

(** With the key set and the model not listed, the HTTPException 400
    raised inside [try] sets off the same search, which fails the same
    way; the provider is not called. *)
Lemma generate_question_unlisted (g : Globals) (gen : provider) topic log :
  truthy (GENAI_API_KEY g) = true -> ~ model_available g ->
  generate_question hs g gen topic log = (Raise no_RateLimitError, log).
Proof.
  intros Hkey Hav. apply unavailable_decide in Hav.
  by enter_handler Hkey Hav.
Qed.

Lemma evaluate_answer_unlisted (g : Globals) (gen : provider) request log :
  truthy (GENAI_API_KEY g) = true -> ~ model_available g ->
  evaluate_answer hs g gen request log = (Raise no_RateLimitError, log).
Proof.
  intros Hkey Hav. apply unavailable_decide in Hav.
  by enter_handler Hkey Hav.
Qed.

End HandlerFacts.

(* --------------------------------------------------------------------- *)
(* The error ladder                                                      *)
(* --------------------------------------------------------------------- *)

(** C1, on the code: after a start-up whose model listing failed (so the
    fixed model is not in [available_models]), both endpoints make no
    provider call, yet they do not answer the 400 that line 52 / line 81
    raises. That HTTPException is raised inside the [try]; the search for
    its handler evaluates genai.types.RateLimitError (line 58 / 92),
    which raises AttributeError; the handler lets that out and the answer
    is the server's 500 page. *)
Theorem unlisted_model_answers_500 :
  startup env_ok (Raise (OtherException (lit "list_models failed")))
  = Ok g_no_model
  /\ generate_question starlette_str g_no_model
       (gen_const (Ok (lit "What is x in 2x=10?"))) (lit "algebra") []
     = (Raise (AttributeError
          (lit "module 'google.generativeai.types' has no attribute 'RateLimitError'")),
        [])
  /\ get_generate_question starlette_str g_no_model
       (gen_const (Ok (lit "What is x in 2x=10?"))) query_algebra
     = ({| status := 500;
           content := PlainText (lit "Internal Server Error") |}, [])
  /\ post_evaluate_answer starlette_str str_strict g_no_model
       (gen_const (Ok (lit "Incorrect; 2+2=4."))) body_full
     = ({| status := 500;
           content := PlainText (lit "Internal Server Error") |}, []).
Proof. repeat split; vm_compute; reflexivity. Qed.

(** The same for every running process, provider and request. *)
Lemma unlisted_model_status hs vs (g : Globals) (gen : provider) :
  running g -> ~ model_available g ->
  (forall query,
     get_generate_question hs g gen query = (internal_server_error, []))
  /\ (forall body, snd (post_evaluate_answer hs vs g gen body) = [])
  /\ (forall body request,
        parse_AnswerRequest vs body = inr request ->
        post_evaluate_answer hs vs g gen body
        = (internal_server_error, [])).
Proof.
  intros Hrun Hav. apply running_key in Hrun. split; [| split].
  - intros query. unfold get_generate_question, serve.
    by rewrite generate_question_unlisted.
  - intros body. unfold post_evaluate_answer.
    destruct (parse_AnswerRequest vs body); [reflexivity|].
    unfold serve. by rewrite evaluate_answer_unlisted.
  - intros body request Hparse. unfold post_evaluate_answer.
    rewrite Hparse. unfold serve. by rewrite evaluate_answer_unlisted.
Qed.

(** C2, as stated, fails: a provider text of blanks is a success, and the
    question returned with status 200 is the empty string. *)
Lemma blank_text_gives_empty_question :
  status (fst (get_generate_question starlette_str g_ok
                 (gen_const (Ok (lit "   "))) query_algebra)) = 200
  /\ member (fst (get_generate_question starlette_str g_ok
                    (gen_const (Ok (lit "   "))) query_algebra))
            (lit "question") = Some []
  /\ ~ (exists q,
         member (fst (get_generate_question starlette_str g_ok
                        (gen_const (Ok (lit "   "))) query_algebra))
                (lit "question") = Some q
         /\ q <> []).
Proof.
  assert (E : member (fst (get_generate_question starlette_str g_ok
                (gen_const (Ok (lit "   "))) query_algebra))
              (lit "question") = Some []) by (vm_compute; reflexivity).
  split; [vm_compute; reflexivity|]. split; [exact E|].
  intros (q & Hq & Hne). rewrite E in Hq. by injection Hq as <-.
Qed.

(** C2, amended: when the provider call succeeds, generate_question
    answers 200 with "question" mapped to the provider's text stripped: a
    string with no white space at either end, which is non-empty exactly
    when the text has a character that is not white space. *)
Theorem question_is_trimmed hs (g : Globals) (gen : provider) query text :
  running g -> model_available g ->
  gen the_model (question_prompt (query_topic query)) = Ok text ->
  exists q,
    fst (get_generate_question hs g gen query)
    = {| status := 200; content := JsonDict {[ lit "question" := q ]} |}
    /\ q = strip text
    /\ trimmed q
    /\ (q <> [] <-> exists c, c ∈ text /\ isspace c = false).
Proof.
  intros Hrun Hav Hgen. apply running_key in Hrun.
  exists (strip text). split; [| split; [reflexivity | split]].
  - unfold get_generate_question, serve. fold (query_topic query).
    by rewrite (generate_question_ok hs g gen _ text).
  - apply strip_trimmed.
  - apply strip_nonempty_iff.
Qed.

Lemma question_is_trimmed_witness :
  exists q,
    fst (get_generate_question starlette_str g_ok
           (gen_const (Ok (lit "  What is x in 2x=10? "))) query_algebra)
    = {| status := 200; content := JsonDict {[ lit "question" := q ]} |}
    /\ q = strip (lit "  What is x in 2x=10? ")
    /\ trimmed q
    /\ (q <> [] <->
        exists c, c ∈ lit "  What is x in 2x=10? " /\ isspace c = false).
Proof.
  apply (question_is_trimmed starlette_str g_ok
           (gen_const (Ok (lit "  What is x in 2x=10? "))) query_algebra).
  - exists env_ok, models_ok. vm_compute. reflexivity.
  - apply (bool_decide_unpack _). vm_compute. exact I.
  - reflexivity.
Defined.

(** When the provider call raises, whatever it raises, both endpoints
    answer the server's 500 page after the one call. *)
Lemma provider_failure_answers_500 hs vs (g : Globals) (gen : provider) :
  running g -> model_available g ->
  (forall query e,
     gen the_model (question_prompt (query_topic query)) = Raise e ->
     get_generate_question hs g gen query
     = (internal_server_error,
        [Call the_model (question_prompt (query_topic query))]))
  /\ (forall body request e,
        parse_AnswerRequest vs body = inr request ->
        gen the_model (evaluation_prompt request) = Raise e ->
        post_evaluate_answer hs vs g gen body
        = (internal_server_error,
           [Call the_model (evaluation_prompt request)])).
Proof.
  intros Hrun Hav. apply running_key in Hrun. split.
  - intros query e Hgen. unfold get_generate_question, serve.
    fold (query_topic query).
    by rewrite (generate_question_raise hs g gen _ e).
  - intros body request e Hparse Hgen. unfold post_evaluate_answer.
    rewrite Hparse. unfold serve.
    by rewrite (evaluate_answer_raise hs g gen _ e).
Qed.

(** C3, on the code: with the model listed and the provider raising its
    rate-limit error, neither endpoint answers 429. The first [except]
    clause names genai.types.RateLimitError, which the library does not
    define; evaluating it raises AttributeError, and the answer is the
    server's 500 page. *)
Theorem rate_limit_answers_500 :
  get_generate_question starlette_str g_ok
    (gen_const (Raise (ResourceExhausted
                         (lit "429 Resource has been exhausted"))))
    query_algebra
  = ({| status := 500;
        content := PlainText (lit "Internal Server Error") |},
     [Call (lit "models/gemini-1.5-flash")
           (lit "Generate a algebra learning question.")])
  /\ fst (post_evaluate_answer starlette_str str_strict g_ok
            (gen_const (Raise (ResourceExhausted
                                 (lit "429 Resource has been exhausted"))))
            body_full)
     = {| status := 500;
          content := PlainText (lit "Internal Server Error") |}.
Proof. split; vm_compute; reflexivity. Qed.

(** C4, on the code: with the model listed and the provider raising its
    invalid-request error, neither endpoint answers 400 with the error's
    description: the clause of line 61 / 95 is never reached, the search
    having ended in AttributeError at line 58 / 92; the answer is the
    server's 500 page. *)
Theorem invalid_request_answers_500 :
  get_generate_question starlette_str g_ok
    (gen_const (Raise (InvalidArgument (lit "400 bad prompt"))))
    query_algebra
  = ({| status := 500;
        content := PlainText (lit "Internal Server Error") |},
     [Call (lit "models/gemini-1.5-flash")
           (lit "Generate a algebra learning question.")])
  /\ fst (post_evaluate_answer starlette_str str_strict g_ok
            (gen_const (Raise (InvalidArgument (lit "400 bad prompt"))))
            body_full)
     = {| status := 500;
          content := PlainText (lit "Internal Server Error") |}.
Proof. split; vm_compute; reflexivity. Qed.

(** C5, on the code: with the model listed and the provider call failing
    with any other error, the handlers do not turn it into an
    HTTPException: an AttributeError leaves each handler, and the answer
    is the server's 500 page, with no "Unexpected error: ..." detail. *)
Theorem other_failure_leaves_handler :
  fst (generate_question starlette_str g_ok
         (gen_const (Raise (OtherException (lit "connection reset"))))
         (lit "algebra") [])
  = Raise (AttributeError
      (lit "module 'google.generativeai.types' has no attribute 'RateLimitError'"))
  /\ ~ handled (fst (generate_question starlette_str g_ok
                       (gen_const (Raise (OtherException
                                            (lit "connection reset"))))
                       (lit "algebra") []))
  /\ ~ handled (fst (evaluate_answer starlette_str g_ok
                       (gen_const (Raise (OtherException
                                            (lit "connection reset"))))
                       request_full []))
  /\ fst (get_generate_question starlette_str g_ok
            (gen_const (Raise (OtherException (lit "connection reset"))))
            query_algebra)
     = {| status := 500;
          content := PlainText (lit "Internal Server Error") |}
  /\ fst (post_evaluate_answer starlette_str str_strict g_ok
            (gen_const (Raise (OtherException (lit "connection reset"))))
            body_full)
     = {| status := 500;
          content := PlainText (lit "Internal Server Error") |}.
Proof.
  split; [vm_compute; reflexivity|].
  split; [vm_compute; tauto|].
  split; [vm_compute; tauto|].
  split; vm_compute; reflexivity.
Qed.

(* --------------------------------------------------------------------- *)
(* The two pipelines on success                                          *)
(* --------------------------------------------------------------------- *)

(** C6: with the topic read from the query (or "math" when absent),
    generate_question makes exactly one provider call, with the prompt
    "Generate a {topic} learning question."; when that call succeeds the
    answer is 200 with body {"question": t}, where t is the provider's
    text with the white space around it taken off: t has no white space
    at either end, and the text is t between two runs of white space. *)
Theorem generate_question_pipeline hs (g : Globals) (gen : provider) query :
  running g -> model_available g ->
  let topic := default (lit "math") (query !! lit "topic") in
  let prompt := lit "Generate a " ++ topic ++ lit " learning question." in
  (query !! lit "topic" = None -> topic = lit "math")
  /\ snd (get_generate_question hs g gen query)
     = [Call (lit "models/gemini-1.5-flash") prompt]
  /\ (forall text,
        gen (lit "models/gemini-1.5-flash") prompt = Ok text ->
        exists t pre post,
          fst (get_generate_question hs g gen query)
          = {| status := 200;
               content := JsonDict {[ lit "question" := t ]} |}
          /\ t = strip text
          /\ trimmed t
          /\ text = pre ++ t ++ post
          /\ Forall (fun c => isspace c = true) pre
          /\ Forall (fun c => isspace c = true) post).
Proof.
  intros Hrun Hav topic prompt. apply running_key in Hrun.
  split; [| split].
  - intros Hnone. unfold topic. by rewrite Hnone.
  - unfold get_generate_question, serve. fold topic.
    destruct (gen the_model (question_prompt topic)) as [text | e] eqn:Hgen.
    + by rewrite (generate_question_ok hs g gen _ text).
    + by rewrite (generate_question_raise hs g gen _ e).
  - intros text Hgen.
    destruct (strip_split text) as (pre & post & Ht & Hpre & Hpost).
    exists (strip text), pre, post.
    split; [| split; [reflexivity | split; [apply strip_trimmed | done]]].
    unfold get_generate_question, serve. fold topic.
    by rewrite (generate_question_ok hs g gen _ text).
Qed.

Lemma generate_question_pipeline_witness :
  snd (get_generate_question starlette_str g_ok
         (gen_const (Ok ([10%N] ++ lit "  What is x in 2x=10? " ++ [10%N])))
         query_algebra)
  = [Call (lit "models/gemini-1.5-flash")
          (lit "Generate a algebra learning question.")]
  /\ exists t pre post,
       fst (get_generate_question starlette_str g_ok
              (gen_const
                 (Ok ([10%N] ++ lit "  What is x in 2x=10? " ++ [10%N])))
              query_algebra)
       = {| status := 200; content := JsonDict {[ lit "question" := t ]} |}
       /\ t = strip ([10%N] ++ lit "  What is x in 2x=10? " ++ [10%N])
       /\ trimmed t
       /\ [10%N] ++ lit "  What is x in 2x=10? " ++ [10%N] = pre ++ t ++ post
       /\ Forall (fun c => isspace c = true) pre
       /\ Forall (fun c => isspace c = true) post.
Proof.
  destruct (generate_question_pipeline starlette_str g_ok
              (gen_const
                 (Ok ([10%N] ++ lit "  What is x in 2x=10? " ++ [10%N])))
              query_algebra)
    as (_ & Hcall & Hbody).
  - exists env_ok, models_ok. vm_compute. reflexivity.
  - apply (bool_decide_unpack _). vm_compute. exact I.
  - split; [exact Hcall|].
    apply (Hbody ([10%N] ++ lit "  What is x in 2x=10? " ++ [10%N])).
    reflexivity.
Defined.

(** The witness's question, computed: the blanks around it are gone. *)
Example generate_question_strips_blanks :
  fst (get_generate_question starlette_str g_ok
         (gen_const (Ok ([10%N] ++ lit "  What is x in 2x=10? " ++ [10%N])))
         query_algebra)
  = {| status := 200;
       content := JsonDict {[ lit "question" :=
         lit "What is x in 2x=10?" ]} |}.
Proof. vm_compute. reflexivity. Qed.

(** C7: for a body whose question and answer members are strings,
    evaluate_answer makes exactly one provider call, with the three-line
    prompt that carries the question and the answer unchanged and asks to
    evaluate the answer and, if it is incorrect, to give a hint or an
    explanation; when that call succeeds the answer is 200 with body
    {"feedback": t}, where t is the provider's text with the white space
    around it taken off: t has no white space at either end, and the
    text is t between two runs of white space. *)
Theorem evaluate_answer_pipeline (hs : Z -> list N -> list N)
    (vs : json -> option (list N)) (g : Globals) (gen : provider)
    (body : gmap (list N) json) (q a : list N) :
  (forall s, vs (JString s) = Some s) ->
  running g -> model_available g ->
  body !! lit "question" = Some (JString q) ->
  body !! lit "answer" = Some (JString a) ->
  let prompt :=
    lit "Here is a learning question: " ++ q ++ [10%N]
    ++ lit "The user's answer: " ++ a ++ [10%N]
    ++ lit "Evaluate the correctness of this answer. If incorrect, provide a helpful hint or explanation." in
  snd (post_evaluate_answer hs vs g gen body)
  = [Call (lit "models/gemini-1.5-flash") prompt]
  /\ contains prompt q
  /\ contains prompt a
  /\ (forall text,
        gen (lit "models/gemini-1.5-flash") prompt = Ok text ->
        exists t pre post,
          fst (post_evaluate_answer hs vs g gen body)
          = {| status := 200;
               content := JsonDict {[ lit "feedback" := t ]} |}
          /\ t = strip text
          /\ trimmed t
          /\ text = pre ++ t ++ post
          /\ Forall (fun c => isspace c = true) pre
          /\ Forall (fun c => isspace c = true) post).
Proof.
  intros Hvs Hrun Hav Hq Ha prompt. apply running_key in Hrun.
  assert (Hparse : parse_AnswerRequest vs body
                   = inr {| question := q; answer := a |}).
  { unfold parse_AnswerRequest, validate_field. by rewrite Hq, Ha, !Hvs. }
  split; [| split; [| split]].
  - unfold post_evaluate_answer. rewrite Hparse. unfold serve.
    destruct (gen the_model
                (evaluation_prompt {| question := q; answer := a |}))
      as [text | e] eqn:Hgen.
    + by rewrite (evaluate_answer_ok hs g gen _ text).
    + by rewrite (evaluate_answer_raise hs g gen _ e).
  - by exists (lit "Here is a learning question: "),
      ([10%N] ++ lit "The user's answer: " ++ a ++ [10%N]
       ++ lit "Evaluate the correctness of this answer. If incorrect, provide a helpful hint or explanation.").
  - exists (lit "Here is a learning question: " ++ q ++ [10%N]
            ++ lit "The user's answer: "),
      ([10%N] ++ lit "Evaluate the correctness of this answer. If incorrect, provide a helpful hint or explanation.").
    unfold prompt. by rewrite <- !(assoc_L (++)).
  - intros text Hgen.
    destruct (strip_split text) as (pre & post & Ht & Hpre & Hpost).
    exists (strip text), pre, post.
    split; [| split; [reflexivity | split; [apply strip_trimmed | done]]].
    unfold post_evaluate_answer. rewrite Hparse. unfold serve.
    by rewrite (evaluate_answer_ok hs g gen _ text).
Qed.

Lemma evaluate_answer_pipeline_witness :
  snd (post_evaluate_answer starlette_str str_strict g_ok
         (gen_const (Ok (lit " Incorrect; 2+2=4." ++ [10%N]))) body_full)
  = [Call (lit "models/gemini-1.5-flash")
          (lit "Here is a learning question: 2+2?" ++ [10%N]
           ++ lit "The user's answer: 5" ++ [10%N]
           ++ lit "Evaluate the correctness of this answer. If incorrect, provide a helpful hint or explanation.")]
  /\ exists t pre post,
       fst (post_evaluate_answer starlette_str str_strict g_ok
              (gen_const (Ok (lit " Incorrect; 2+2=4." ++ [10%N])))
              body_full)
       = {| status := 200; content := JsonDict {[ lit "feedback" := t ]} |}
       /\ t = strip (lit " Incorrect; 2+2=4." ++ [10%N])
       /\ trimmed t
       /\ lit " Incorrect; 2+2=4." ++ [10%N] = pre ++ t ++ post
       /\ Forall (fun c => isspace c = true) pre
       /\ Forall (fun c => isspace c = true) post.
Proof.
  destruct (evaluate_answer_pipeline starlette_str str_strict g_ok
              (gen_const (Ok (lit " Incorrect; 2+2=4." ++ [10%N])))
              body_full (lit "2+2?") (lit "5"))
    as (Hcall & _ & _ & Hbody).
  - intros s. reflexivity.
  - exists env_ok, models_ok. vm_compute. reflexivity.
  - apply (bool_decide_unpack _). vm_compute. exact I.
  - vm_compute. reflexivity.
  - vm_compute. reflexivity.
  - split; [exact Hcall|].
    apply (Hbody (lit " Incorrect; 2+2=4." ++ [10%N])). reflexivity.
Defined.

(** The witness's feedback, computed: the blanks around it are gone. *)
Example evaluate_answer_strips_blanks :
  fst (post_evaluate_answer starlette_str str_strict g_ok
         (gen_const (Ok (lit " Incorrect; 2+2=4." ++ [10%N]))) body_full)
  = {| status := 200;
       content := JsonDict {[ lit "feedback" :=
         lit "Incorrect; 2+2=4." ]} |}.
Proof. vm_compute. reflexivity. Qed.

(* --------------------------------------------------------------------- *)
(* Request validation                                                    *)
(* --------------------------------------------------------------------- *)



(* --------------------------------------------------------------------- *)
(* Start-up and the credential                                           *)
(* --------------------------------------------------------------------- *)

(** C9: start-up raises exactly when GENAI_API_KEY is absent from the
    environment or empty; when it is set to a non-empty value start-up
    goes through and keeps that value, whether or not the model listing
    worked. *)
Theorem startup_needs_key (environ : gmap (list N) (list N))
    (list_models : result (list Model)) :
  ((exists e, startup environ list_models = Raise e)
   <-> (environ !! lit "GENAI_API_KEY" = None
        \/ environ !! lit "GENAI_API_KEY" = Some []))
  /\ ((exists g, startup environ list_models = Ok g)
      <-> (exists k, environ !! lit "GENAI_API_KEY" = Some k /\ k <> []))
  /\ (forall g, startup environ list_models = Ok g ->
        GENAI_API_KEY g = environ !! lit "GENAI_API_KEY").
Proof.
  unfold startup.
  destruct (environ !! lit "GENAI_API_KEY") as [[|c k]|] eqn:E; simpl.
  - split; [| split].
    + split; [intros _; by right | intros _; eauto].
    + split; [intros [g Hg]; discriminate | intros (k & [= <-] & Hk); done].
    + intros g Hg. discriminate.
  - split; [| split].
    + split; [intros [e He]; discriminate | intros [H | H]; discriminate].
    + split; [intros _; by exists (c :: k) | intros _; eauto].
    + by intros g [= <-].
  - split; [| split].
    + split; [intros _; by left | intros _; eauto].
    + split; [intros [g Hg]; discriminate | intros (k & Hk & _); done].
    + intros g Hg. discriminate.
Qed.

(** C10: in a running process GENAI_API_KEY is truthy, so the credential
    check at the head of each handler does not fire: no request is
    answered with the 500 "Google Gemini API key is missing!" error. *)
Theorem key_check_never_fires (hs : Z -> list N -> list N) (g : Globals) :
  running g ->
  negb (truthy (GENAI_API_KEY g)) = false
  /\ (forall gen topic log,
        fst (generate_question hs g gen topic log)
        <> Raise (HTTPException 500
                    (lit "Google Gemini API key is missing!")))
  /\ (forall gen request log,
        fst (evaluate_answer hs g gen request log)
        <> Raise (HTTPException 500
                    (lit "Google Gemini API key is missing!"))).
Proof.
  intros Hrun. apply running_key in Hrun.
  split; [by rewrite Hrun|].
  split; intros gen x log; unfold generate_question, evaluate_answer;
    rewrite Hrun; simpl negb; cbv iota;
    unfold try_except, bind, raise, ret, generate_content;
    (destruct (bool_decide _); simpl negb; cbv iota;
     [destruct (gen _ _) as [text | e] |]);
    cbv [dispatch genai_types_getattr raise fst]; discriminate.
Qed.

Lemma key_check_never_fires_witness :
  negb (truthy (GENAI_API_KEY g_ok)) = false
  /\ fst (generate_question starlette_str g_ok
            (gen_const (Raise (OtherException (lit "boom"))))
            (lit "math") [])
     <> Raise (HTTPException 500 (lit "Google Gemini API key is missing!")).
Proof.
  destruct (key_check_never_fires starlette_str g_ok) as (Hk & Hq & _).
  - exists env_ok, models_ok. vm_compute. reflexivity.
  - split; [exact Hk | apply Hq].
Defined.

(* ===================================================================== *)
(* Further properties of main.py                                         *)
(* ===================================================================== *)

Ltac started := exists env_ok, models_ok; vm_compute; reflexivity.
Ltac listed := apply (bool_decide_unpack _); vm_compute; exact I.

Ltac open_handler :=
  unfold generate_question, evaluate_answer;
  unfold try_except, bind, raise, ret, generate_content.

Ltac close_ladder := cbv [dispatch genai_types_getattr raise fst snd].

(* --------------------------------------------------------------------- *)
(* The shape of every response                                           *)
(* --------------------------------------------------------------------- *)

(** X1: whatever the globals, the provider and the query, the answer of
    GET /generate_question is 200 with the one-member object
    {"question": q}, or 500 with {"detail": "Google Gemini API key is
    missing!"}, or the server's 500 page; 400 and 429 are never
    answered. *)
Theorem generate_question_response_shape (hs : Z -> list N -> list N)
    (g : Globals) (gen : provider) (query : gmap (list N) (list N)) :
  (status (fst (get_generate_question hs g gen query)) = 200
   /\ exists q, content (fst (get_generate_question hs g gen query))
                = JsonDict {[ lit "question" := q ]})
  \/ fst (get_generate_question hs g gen query)
     = {| status := 500;
          content := JsonDict {[ lit "detail" :=
            lit "Google Gemini API key is missing!" ]} |}
  \/ fst (get_generate_question hs g gen query)
     = {| status := 500;
          content := PlainText (lit "Internal Server Error") |}.
Proof.
  unfold get_generate_question, serve. open_handler.
  destruct (truthy (GENAI_API_KEY g)); simpl negb; cbv iota;
    [| right; left; reflexivity].
  destruct (bool_decide _); simpl negb; cbv iota;
    [| right; right; reflexivity].
  destruct (gen _ _) as [text | e]; [left; simpl; eauto |].
  right; right. reflexivity.
Qed.





(* --------------------------------------------------------------------- *)
(* Provider calls                                                        *)
(* --------------------------------------------------------------------- *)

(** X4: a handler run keeps the call log it starts from and adds at most
    one call: exactly one, to the fixed model with the handler's prompt,
    when the key is set and the model is listed (whether the provider
    then succeeds or raises: nothing is retried), and none otherwise. *)
Theorem handler_calls_exact (hs : Z -> list N -> list N) (g : Globals)
    (gen : provider) (log : list call) :
  (forall topic,
     snd (generate_question hs g gen topic log)
     = log ++ calls_when_ready g
                (lit "Generate a " ++ topic ++ lit " learning question."))
  /\ (forall request,
        snd (evaluate_answer hs g gen request log)
        = log ++ calls_when_ready g (evaluation_prompt request)).
Proof.
  split; intros x; unfold calls_when_ready; open_handler;
    (destruct (truthy (GENAI_API_KEY g)); simpl;
     [| by rewrite app_nil_r]);
    (destruct (bool_decide _); simpl; [| by rewrite app_nil_r]);
    (destruct (gen _ _) as [text | e]; done).
Qed.

(** X5: a process that came through start-up contacts the provider for a
    request exactly when the model listing of that start-up succeeded
    and one of its entries is named "models/gemini-1.5-flash". *)
Theorem provider_called_iff_listed (hs : Z -> list N -> list N)
    (environ : gmap (list N) (list N)) (list_models : result (list Model))
    (g : Globals) (gen : provider) (query : gmap (list N) (list N)) :
  startup environ list_models = Ok g ->
  snd (get_generate_question hs g gen query) <> []
  <-> exists models m,
        list_models = Ok models
        /\ m ∈ models /\ name m = lit "models/gemini-1.5-flash".
Proof.
  intros Hstart.
  assert (Hkey : truthy (GENAI_API_KEY g) = true)
    by (apply running_key; by exists environ, list_models).
  assert (Hlog : snd (get_generate_question hs g gen query)
                 = calls_when_ready g (question_prompt (query_topic query))).
  { unfold get_generate_question, serve.
    destruct (generate_question hs g gen _ []) as [r l] eqn:E.
    pose proof (proj1 (handler_calls_exact hs g gen []) (query_topic query))
      as H.
    unfold query_topic in H. rewrite E in H. exact H. }
  rewrite Hlog. unfold calls_when_ready. rewrite Hkey. simpl andb.
  unfold startup in Hstart.
  destruct (truthy (environ !! lit "GENAI_API_KEY")); simpl in Hstart;
    [| discriminate].
  injection Hstart as <-. simpl available_models.
  destruct list_models as [models | e].
  - case_bool_decide as Hin.
    + split; [intros _ | done].
      apply list_elem_of_fmap in Hin as (m & Hm & Hin). eauto.
    + split; [done|]. intros (models' & m & [= <-] & Hin' & Hm).
      destruct Hin. apply list_elem_of_fmap. eauto.
  - case_bool_decide as Hin; [by apply elem_of_nil in Hin|].
    split; [done|]. intros (models & m & Hfalse & _). discriminate.
Qed.

Lemma provider_called_iff_listed_witness :
  snd (get_generate_question starlette_str g_ok
         (gen_const (Ok (lit "What is x in 2x=10?"))) query_algebra) <> []
  <-> exists models m,
        models_ok = Ok models
        /\ m ∈ models /\ name m = lit "models/gemini-1.5-flash".
Proof.
  apply (provider_called_iff_listed starlette_str env_ok models_ok g_ok).
  vm_compute. reflexivity.
Defined.

(** X6: when the model listing fails at start-up the process still
    starts, but from then on both endpoints answer every request with the
    server's 500 page and never call the provider. *)
Theorem failed_listing_disables_endpoints (hs : Z -> list N -> list N)
    (vs : json -> option (list N)) (environ : gmap (list N) (list N))
    (e : exn) (g : Globals) (gen : provider) :
  startup environ (Raise e) = Ok g ->
  (forall query,
     get_generate_question hs g gen query
     = ({| status := 500;
           content := PlainText (lit "Internal Server Error") |}, []))
  /\ (forall body request,
        parse_AnswerRequest vs body = inr request ->
        post_evaluate_answer hs vs g gen body
        = ({| status := 500;
              content := PlainText (lit "Internal Server Error") |}, [])).
Proof.
  intros Hstart.
  assert (Hkey : truthy (GENAI_API_KEY g) = true)
    by (apply running_key; by exists environ, (Raise e)).
  assert (Hav : ~ model_available g).
  { unfold startup in Hstart.
    destruct (truthy (environ !! lit "GENAI_API_KEY")); simpl in Hstart;
      [| discriminate].
    injection Hstart as <-. unfold model_available. simpl.
    apply not_elem_of_nil. }
  split.
  - intros query. unfold get_generate_question, serve.
    by rewrite generate_question_unlisted.
  - intros body request Hparse. unfold post_evaluate_answer.
    rewrite Hparse. unfold serve. by rewrite evaluate_answer_unlisted.
Qed.

Lemma failed_listing_disables_endpoints_witness :
  get_generate_question starlette_str g_no_model
    (gen_const (Ok (lit "What is x in 2x=10?"))) query_algebra
  = ({| status := 500;
        content := PlainText (lit "Internal Server Error") |}, []).
Proof.
  destruct (failed_listing_disables_endpoints starlette_str str_strict
              env_ok (OtherException (lit "list_models failed"))
              g_no_model (gen_const (Ok (lit "What is x in 2x=10?"))))
    as [Hq _].
  - vm_compute. reflexivity.
  - apply Hq.
Defined.

(* --------------------------------------------------------------------- *)
(* The credential                                                        *)
(* --------------------------------------------------------------------- *)

(** X7: the credential check comes first and stands outside the [try]:
    with GENAI_API_KEY unset or empty, both handlers answer 500 "Google
    Gemini API key is missing!" without a provider call, whether or not
    the model is listed. *)
Theorem missing_key_short_circuits (hs : Z -> list N -> list N)
    (vs : json -> option (list N)) (g : Globals) (gen : provider) :
  truthy (GENAI_API_KEY g) = false ->
  (forall query,
     get_generate_question hs g gen query
     = ({| status := 500;
           content := JsonDict {[ lit "detail" :=
             lit "Google Gemini API key is missing!" ]} |}, []))
  /\ (forall body request,
        parse_AnswerRequest vs body = inr request ->
        post_evaluate_answer hs vs g gen body
        = ({| status := 500;
              content := JsonDict {[ lit "detail" :=
                lit "Google Gemini API key is missing!" ]} |}, [])).
Proof.
  intros Hkey. split.
  - intros query. unfold get_generate_question, serve, generate_question.
    by rewrite Hkey.
  - intros body request Hparse. unfold post_evaluate_answer.
    rewrite Hparse. unfold serve, evaluate_answer. by rewrite Hkey.
Qed.

Lemma missing_key_short_circuits_witness :
  get_generate_question starlette_str g_no_key
    (gen_const (Ok (lit "What is x in 2x=10?"))) query_algebra
  = ({| status := 500;
        content := JsonDict {[ lit "detail" :=
          lit "Google Gemini API key is missing!" ]} |}, [])
  /\ post_evaluate_answer starlette_str str_strict g_no_key
       (gen_const (Ok (lit "Incorrect; 2+2=4."))) body_full
     = ({| status := 500;
           content := JsonDict {[ lit "detail" :=
             lit "Google Gemini API key is missing!" ]} |}, []).
Proof.
  destruct (missing_key_short_circuits starlette_str str_strict g_no_key
              (gen_const (Ok (lit "Incorrect; 2+2=4."))))
    as [Hq Ha].
  - reflexivity.
  - split.
    + apply (Hq query_algebra).
    + apply (Ha body_full request_full). vm_compute. reflexivity.
Defined.

(** X8: only the presence of the key matters to a handler, not its
    value: two processes with a key each and the same model list answer
    every request alike and make the same provider calls. *)
Theorem key_value_is_not_used (hs : Z -> list N -> list N)
    (vs : json -> option (list N)) (g1 g2 : Globals) (gen : provider) :
  truthy (GENAI_API_KEY g1) = true ->
  truthy (GENAI_API_KEY g2) = true ->
  available_models g1 = available_models g2 ->
  (forall query,
     get_generate_question hs g1 gen query
     = get_generate_question hs g2 gen query)
  /\ (forall body,
        post_evaluate_answer hs vs g1 gen body
        = post_evaluate_answer hs vs g2 gen body).
Proof.
  intros H1 H2 Hm. split.
  - intros query. unfold get_generate_question, serve, generate_question.
    by rewrite H1, H2, Hm.
  - intros body. unfold post_evaluate_answer.
    destruct (parse_AnswerRequest vs body); [reflexivity|].
    unfold serve, evaluate_answer. by rewrite H1, H2, Hm.
Qed.

Lemma key_value_is_not_used_witness :
  get_generate_question starlette_str g_ok
    (gen_const (Ok (lit "What is x in 2x=10?"))) query_algebra
  = get_generate_question starlette_str g_other_key
      (gen_const (Ok (lit "What is x in 2x=10?"))) query_algebra.
Proof.
  destruct (key_value_is_not_used starlette_str str_strict g_ok g_other_key
              (gen_const (Ok (lit "What is x in 2x=10?"))))
    as [Hq _].
  - reflexivity.
  - reflexivity.
  - reflexivity.
  - apply Hq.
Defined.

(* --------------------------------------------------------------------- *)
(* Reading a status back                                                 *)
(* --------------------------------------------------------------------- *)

(** X9: in a running process GET /generate_question answers 200 exactly
    when the model is listed and the provider returned a text, and the
    server's 500 page in every other case, the provider's rate-limit and
    invalid-request errors included: 429 and 400 are never answered. *)
Theorem generate_question_status_iff (hs : Z -> list N -> list N)
    (g : Globals) (gen : provider) (query : gmap (list N) (list N)) :
  running g ->
  (status (fst (get_generate_question hs g gen query)) = 200
   <-> model_available g
       /\ exists text,
            gen the_model (question_prompt (query_topic query)) = Ok text)
  /\ (status (fst (get_generate_question hs g gen query)) <> 200 ->
      fst (get_generate_question hs g gen query)
      = {| status := 500;
           content := PlainText (lit "Internal Server Error") |})
  /\ status (fst (get_generate_question hs g gen query)) <> 429
  /\ status (fst (get_generate_question hs g gen query)) <> 400.
Proof.
  intros Hrun. apply running_key in Hrun.
  unfold get_generate_question, serve. fold (query_topic query).
  destruct (decide (model_available g)) as [Hav | Hav].
  - destruct (gen the_model (question_prompt (query_topic query)))
      as [text | e] eqn:Hgen.
    + rewrite (generate_question_ok hs g gen _ text) by done. simpl.
      repeat split; try done; eauto.
    + rewrite (generate_question_raise hs g gen _ e) by done. simpl.
      repeat split; try done. intros (_ & ? & ?); discriminate.
  - rewrite generate_question_unlisted by done. simpl.
    repeat split; try done. by intros [? _].
Qed.

Lemma generate_question_status_iff_witness :
  fst (get_generate_question starlette_str g_ok
         (gen_const (Raise (ResourceExhausted
                              (lit "429 Resource has been exhausted"))))
         query_algebra)
  = {| status := 500; content := PlainText (lit "Internal Server Error") |}.
Proof.
  destruct (generate_question_status_iff starlette_str g_ok
              (gen_const (Raise (ResourceExhausted
                                   (lit "429 Resource has been exhausted"))))
              query_algebra) as (_ & H & _).
  - started.
  - apply H. vm_compute. discriminate.
Defined.

(** X10: the same reading for a POST /evaluate_answer whose body
    validates: 200 exactly when the model is listed and the provider
    returned a text, the server's 500 page otherwise, never 429 or
    400. *)
Theorem evaluate_answer_status_iff (hs : Z -> list N -> list N)
    (vs : json -> option (list N)) (g : Globals) (gen : provider)
    (body : gmap (list N) json) (request : AnswerRequest) :
  running g ->
  parse_AnswerRequest vs body = inr request ->
  (status (fst (post_evaluate_answer hs vs g gen body)) = 200
   <-> model_available g
       /\ exists text, gen the_model (evaluation_prompt request) = Ok text)
  /\ (status (fst (post_evaluate_answer hs vs g gen body)) <> 200 ->
      fst (post_evaluate_answer hs vs g gen body)
      = {| status := 500;
           content := PlainText (lit "Internal Server Error") |})
  /\ status (fst (post_evaluate_answer hs vs g gen body)) <> 429
  /\ status (fst (post_evaluate_answer hs vs g gen body)) <> 400.
Proof.
  intros Hrun Hparse. apply running_key in Hrun.
  unfold post_evaluate_answer. rewrite Hparse. unfold serve.
  destruct (decide (model_available g)) as [Hav | Hav].
  - destruct (gen the_model (evaluation_prompt request))
      as [text | e] eqn:Hgen.
    + rewrite (evaluate_answer_ok hs g gen _ text) by done. simpl.
      repeat split; try done; eauto.
    + rewrite (evaluate_answer_raise hs g gen _ e) by done. simpl.
      repeat split; try done. intros (_ & ? & ?); discriminate.
  - rewrite evaluate_answer_unlisted by done. simpl.
    repeat split; try done. by intros [? _].
Qed.

Lemma evaluate_answer_status_iff_witness :
  status (fst (post_evaluate_answer starlette_str str_strict g_ok
                 (gen_const (Ok (lit "Incorrect; 2+2=4."))) body_full)) = 200
  <-> model_available g_ok
      /\ exists text,
           gen_const (Ok (lit "Incorrect; 2+2=4.")) the_model
             (evaluation_prompt request_full) = Ok text.
Proof.
  destruct (evaluate_answer_status_iff starlette_str str_strict g_ok
              (gen_const (Ok (lit "Incorrect; 2+2=4."))) body_full
              request_full) as (H & _).
  - started.
  - vm_compute. reflexivity.
  - exact H.
Defined.

(* --------------------------------------------------------------------- *)
(* What stripping keeps                                                  *)
(* --------------------------------------------------------------------- *)

Lemma lstrip_fixed (s : list N) :
  (forall c, head s = Some c -> isspace c = false) -> lstrip s = s.
Proof.
  destruct s as [|c s]; [reflexivity|]. intros H. simpl.
  by rewrite (H c).
Qed.

Lemma strip_fixed (s : list N) : trimmed s -> strip s = s.
Proof.
  intros [Hhead Hlast]. unfold strip. rewrite (lstrip_fixed s) by done.
  unfold rstrip. rewrite lstrip_fixed; [apply reverse_involutive|].
  intros c Hc. apply Hlast.
  rewrite <- last_reverse in Hc. by rewrite reverse_involutive in Hc.
Qed.

(** X11: on success the text handed back under "question" or "feedback"
    is the provider's text with white space taken off its two ends and
    nothing else changed: the provider's text is that value between a
    run of white space before and a run of white space after. *)
Theorem returned_text_is_inner_text (hs : Z -> list N -> list N)
    (vs : json -> option (list N)) (g : Globals) (gen : provider) :
  running g -> model_available g ->
  (forall query text,
     gen the_model (question_prompt (query_topic query)) = Ok text ->
     exists q pre post,
       fst (get_generate_question hs g gen query)
       = {| status := 200; content := JsonDict {[ lit "question" := q ]} |}
       /\ text = pre ++ q ++ post
       /\ Forall (fun c => isspace c = true) pre
       /\ Forall (fun c => isspace c = true) post)
  /\ (forall body request text,
        parse_AnswerRequest vs body = inr request ->
        gen the_model (evaluation_prompt request) = Ok text ->
        exists f pre post,
          fst (post_evaluate_answer hs vs g gen body)
          = {| status := 200;
               content := JsonDict {[ lit "feedback" := f ]} |}
          /\ text = pre ++ f ++ post
          /\ Forall (fun c => isspace c = true) pre
          /\ Forall (fun c => isspace c = true) post).
Proof.
  intros Hrun Hav. apply running_key in Hrun. split.
  - intros query text Hgen.
    destruct (strip_split text) as (pre & post & Ht & Hpre & Hpost).
    exists (strip text), pre, post. split; [| done].
    unfold get_generate_question, serve. fold (query_topic query).
    by rewrite (generate_question_ok hs g gen _ text).
  - intros body request text Hparse Hgen.
    destruct (strip_split text) as (pre & post & Ht & Hpre & Hpost).
    exists (strip text), pre, post. split; [| done].
    unfold post_evaluate_answer. rewrite Hparse. unfold serve.
    by rewrite (evaluate_answer_ok hs g gen _ text).
Qed.

Lemma returned_text_is_inner_text_witness :
  exists q pre post,
    fst (get_generate_question starlette_str g_ok
           (gen_const (Ok (lit "  What is x in 2x=10? "))) query_algebra)
    = {| status := 200; content := JsonDict {[ lit "question" := q ]} |}
    /\ lit "  What is x in 2x=10? " = pre ++ q ++ post
    /\ Forall (fun c => isspace c = true) pre
    /\ Forall (fun c => isspace c = true) post.
Proof.
  destruct (returned_text_is_inner_text starlette_str str_strict g_ok
              (gen_const (Ok (lit "  What is x in 2x=10? "))))
    as [Hq _].
  - started.
  - listed.
  - apply (Hq query_algebra (lit "  What is x in 2x=10? ")). reflexivity.
Defined.

(** X12: a provider text that has no white space at either end comes
    back unchanged, on both endpoints. *)
Theorem trimmed_text_comes_back_verbatim (hs : Z -> list N -> list N)
    (vs : json -> option (list N)) (g : Globals) (gen : provider)
    (text : list N) :
  running g -> model_available g -> trimmed text ->
  (forall query,
     gen the_model (question_prompt (query_topic query)) = Ok text ->
     fst (get_generate_question hs g gen query)
     = {| status := 200;
          content := JsonDict {[ lit "question" := text ]} |})
  /\ (forall body request,
        parse_AnswerRequest vs body = inr request ->
        gen the_model (evaluation_prompt request) = Ok text ->
        fst (post_evaluate_answer hs vs g gen body)
        = {| status := 200;
             content := JsonDict {[ lit "feedback" := text ]} |}).
Proof.
  intros Hrun Hav Htrim. apply running_key in Hrun.
  apply strip_fixed in Htrim. split.
  - intros query Hgen. unfold get_generate_question, serve.
    fold (query_topic query).
    by rewrite (generate_question_ok hs g gen _ text), Htrim.
  - intros body request Hparse Hgen. unfold post_evaluate_answer.
    rewrite Hparse. unfold serve.
    by rewrite (evaluate_answer_ok hs g gen _ text), Htrim.
Qed.

Lemma trimmed_text_comes_back_verbatim_witness :
  fst (post_evaluate_answer starlette_str str_strict g_ok
         (gen_const (Ok (lit "Incorrect; 2+2=4."))) body_full)
  = {| status := 200;
       content := JsonDict {[ lit "feedback" :=
         lit "Incorrect; 2+2=4." ]} |}.
Proof.
  destruct (trimmed_text_comes_back_verbatim starlette_str str_strict g_ok
              (gen_const (Ok (lit "Incorrect; 2+2=4.")))
              (lit "Incorrect; 2+2=4.")) as [_ Ha].
  - started.
  - listed.
  - split; intros c; vm_compute; intros [= <-]; reflexivity.
  - apply (Ha body_full request_full); [vm_compute; reflexivity|].
    reflexivity.
Defined.

(* --------------------------------------------------------------------- *)
(* What the prompts tell apart                                           *)
(* --------------------------------------------------------------------- *)

(** X13: the question prompt determines the topic: two topics that
    differ never give the same prompt. *)
Theorem question_prompt_injective (t1 t2 : list N) :
  question_prompt t1 = question_prompt t2 -> t1 = t2.
Proof.
  unfold question_prompt. intros H.
  apply app_inv_head in H. by apply app_inv_tail in H.
Qed.

Lemma question_prompt_injective_witness : lit "algebra" = lit "algebra".
Proof.
  apply (question_prompt_injective (lit "algebra") (lit "algebra")).
  reflexivity.
Defined.

Lemma evaluate_answer_by_prompt (hs : Z -> list N -> list N) (g : Globals)
    (gen : provider) (r1 r2 : AnswerRequest) :
  evaluation_prompt r1 = evaluation_prompt r2 ->
  evaluate_answer hs g gen r1 = evaluate_answer hs g gen r2.
Proof.
  intros H. unfold evaluate_answer.
  fold (evaluation_prompt r1). fold (evaluation_prompt r2).
  by rewrite H.
Qed.

(** X14: question and answer go into the evaluation prompt as they are,
    with nothing escaped, so the line that introduces the answer can be
    moved from one to the other: the request whose question ends in that
    line followed by x, and the request whose answer begins with x
    followed by that line, are different requests with the same prompt,
    and evaluate_answer answers both alike. *)
Theorem answer_line_moves_between_fields (hs : Z -> list N -> list N)
    (g : Globals) (gen : provider) (q x a : list N) :
  {| question := q ++ answer_line ++ x; answer := a |}
  <> {| question := q; answer := x ++ answer_line ++ a |}
  /\ evaluation_prompt {| question := q ++ answer_line ++ x; answer := a |}
     = evaluation_prompt {| question := q; answer := x ++ answer_line ++ a |}
  /\ serve (evaluate_answer hs g gen
              {| question := q ++ answer_line ++ x; answer := a |})
     = serve (evaluate_answer hs g gen
                {| question := q; answer := x ++ answer_line ++ a |}).
Proof.
  assert (Hprompt :
    evaluation_prompt {| question := q ++ answer_line ++ x; answer := a |}
    = evaluation_prompt {| question := q; answer := x ++ answer_line ++ a |}).
  { unfold evaluation_prompt, answer_line, newline.
    cbn [question answer]. by rewrite <- !app_assoc. }
  split; [| split; [exact Hprompt |]].
  - intros H. apply (f_equal question) in H. cbn [question] in H.
    apply (f_equal length) in H. rewrite !length_app in H.
    unfold answer_line in H. rewrite length_app in H. simpl in H. lia.
  - by rewrite (evaluate_answer_by_prompt hs g gen _ _ Hprompt).
Qed.

Lemma split_at_first (c : N) (l1 l2 r1 r2 : list N) :
  c ∉ l1 -> c ∉ l2 -> l1 ++ c :: r1 = l2 ++ c :: r2 ->
  l1 = l2 /\ r1 = r2.
Proof.
  revert l2. induction l1 as [|y l1 IH]; intros [|z l2] H1 H2 H;
    simpl in H.
  - by injection H as <-.
  - injection H as <- _. destruct H2. by left.
  - injection H as -> _. destruct H1. by left.
  - injection H as <- H.
    apply not_elem_of_cons in H1 as [_ H1].
    apply not_elem_of_cons in H2 as [_ H2].
    destruct (IH l2 H1 H2 H) as [-> ->]. done.
Qed.

(** X15: when the questions contain no line break, the evaluation prompt
    determines the request: two requests with the same prompt have the
    same question and the same answer. *)
Theorem evaluation_prompt_injective (r1 r2 : AnswerRequest) :
  10%N ∉ question r1 -> 10%N ∉ question r2 ->
  evaluation_prompt r1 = evaluation_prompt r2 ->
  r1 = r2.
Proof.
  destruct r1 as [q1 a1], r2 as [q2 a2]. cbn [question answer].
  intros H1 H2 H. unfold evaluation_prompt, newline in H.
  cbn [question answer] in H.
  apply app_inv_head in H.
  change ([10%N] ++ ?l) with (10%N :: l) in H.
  apply split_at_first in H as [-> H]; [| done | done].
  apply app_inv_head in H. apply app_inv_tail in H. by subst.
Qed.

Lemma evaluation_prompt_injective_witness : request_full = request_full.
Proof.
  apply (evaluation_prompt_injective request_full request_full).
  - apply (bool_decide_unpack _). vm_compute. exact I.
  - apply (bool_decide_unpack _). vm_compute. exact I.
  - reflexivity.
Defined.
